(** * Nearest grocery store: haversine distance and nearest-place selection

    A shallow embedding of [nearest_store.py], [make_map.py] and
    [test_places.py].

    Numbers.  A Python [float] is read as a real number: arithmetic is exact
    and [math.sin], [math.cos], [math.sqrt], [math.atan2] are the real
    functions.  [float("inf")] is the one non-finite value the programs make
    themselves; it is kept apart from the reals ([xfloat]).  The module
    [Binary64] holds the distance function once more, on IEEE-754 binary64,
    where rounding is visible.

    Objects.  A place record is a Python [dict] living in a store and reached
    through its address; a list of places is a list of addresses, so that a
    write through one alias is seen through every other.

    The outside.  The [main] functions run in a world: the environment
    variables, the store, and the trace of what the run has done so far
    (requests to the maps service, printed lines, saved maps).  The maps
    client is known by its answers; [load_dotenv], the making of the client
    and the formatting of floats are parameters. *)

From Stdlib Require Import Reals Lra Lia ZArith Floats.
From stdpp Require Import base option list strings pretty gmap.

Open Scope R_scope.

(** ** Exceptions and results *)

Inductive exn : Type :=
  | RuntimeError (msg : string)
  | ValueError
  | TypeError
  | AttributeError
  | KeyError (key : string)
  | IndexError.

Inductive res (A : Type) : Type :=
  | Ok (a : A)
  | Raise (e : exn).
Arguments Ok {A} a.
Arguments Raise {A} e.

#[global] Instance res_ret : MRet res := λ A a, Ok a.
#[global] Instance res_bind : MBind res := λ A B k m,
  match m with
  | Ok a => k a
  | Raise e => Raise e
  end.

(** Order tests on reals, as decidable propositions. *)
#[global] Instance Rlt_decision (x y : R) : Decision (x < y) := Rlt_dec x y.
#[global] Instance Rle_decision (x y : R) : Decision (x <= y) := Rle_dec x y.
#[global] Instance Req_decision : EqDecision R := Req_dec_T.

(** ** Python values *)

(** The JSON values the programs read, and [float("inf")], which
    [make_map.py] makes itself.  A JSON number is finite and is read as the
    real it denotes. *)
#[warnings="-register-all"] Inductive pyval : Type :=
  | VNone
  | VFloat (x : R)
  | VInf
  | VStr (s : string)
  | VList (l : list pyval)
  | VDict (d : gmap string pyval).

Abbreviation pydict := (gmap string pyval).

(** A float that is a real number or [float("inf")]. *)
Inductive xfloat : Type :=
  | Fin (x : R)
  | PInf.

Definition float_val (x : xfloat) : pyval :=
  match x with
  | Fin d => VFloat d
  | PInf => VInf
  end.

(** [d < bound] for a finite [d]. *)
Definition lt_x (d : R) (bound : xfloat) : bool :=
  match bound with
  | Fin b => bool_decide (d < b)
  | PInf => true
  end.

(** What Python's built-in [float] makes of a [str]: the number it spells,
    or [ValueError]. *)
Class Builtins : Type := { float_of_string : string → res R }.

(** What Python's formatting makes of values whose text depends on the float
    representation: [format(x, ".2f")] of a float, and [str(v)] of a value
    that is neither a [str] nor [None]. *)
Class Formatting : Type := {
  format_2f : R → string;
  str_other : pyval → string
}.

Module Py.

(** [v is None] *)
Definition is_none (v : pyval) : bool :=
  match v with
  | VNone => true
  | _ => false
  end.

(** [float(v)].  [float(inf)] is [inf]; both programs hand the result to
    [haversine_miles] before they make anything else of it, and there
    [math.sin] or [math.cos] raises [ValueError] on an infinite argument: the
    exception is raised here. *)
Definition float `{Builtins} (v : pyval) : res R :=
  match v with
  | VFloat x => Ok x
  | VStr s => float_of_string s
  | VInf => Raise ValueError
  | VNone | VList _ | VDict _ => Raise TypeError
  end.

(** [v.get(key, default)] *)
Definition get (v : pyval) (key : string) (dflt : pyval) : res pyval :=
  match v with
  | VDict d => Ok (default dflt (d !! key))
  | _ => Raise AttributeError
  end.

(** [v[0]] *)
Definition item0 (v : pyval) : res pyval :=
  match v with
  | VList l =>
      match l with
      | x :: _ => Ok x
      | [] => Raise IndexError
      end
  | VStr s =>
      match s with
      | String c _ => Ok (VStr (String c EmptyString))
      | EmptyString => Raise IndexError
      end
  | VDict _ => Raise (KeyError "0")
  | VNone | VFloat _ | VInf => Raise TypeError
  end.

(** [v[key]] for a [str] key *)
Definition item (v : pyval) (key : string) : res pyval :=
  match v with
  | VDict d =>
      match d !! key with
      | Some x => Ok x
      | None => Raise (KeyError key)
      end
  | _ => Raise TypeError
  end.

(** [v != s] for a [str] literal [s] *)
Definition ne_str (v : pyval) (s : string) : bool :=
  match v with
  | VStr s' => negb (String.eqb s' s)
  | _ => true
  end.

(** [min(l, key=key)]: the first item is kept until a later one has a
    strictly smaller key. *)
Definition min {A} (key : A → R) (l : list A) : res A :=
  match l with
  | [] => Raise ValueError
  | x :: l' =>
      Ok (fold_left (λ best c, if bool_decide (key c < key best) then c else best) l' x)
  end.

(** [bool(v)], the test of [if v] *)
Definition truthy (v : pyval) : bool :=
  match v with
  | VNone => false
  | VFloat x => negb (bool_decide (x = 0))
  | VInf => true
  | VStr s => negb (String.eqb s "")
  | VList l =>
      match l with
      | [] => false
      | _ :: _ => true
      end
  | VDict d => negb (bool_decide (size d = 0%nat))
  end.

(** [str(v)], which an f-string and [print] apply *)
Definition str `{Formatting} (v : pyval) : string :=
  match v with
  | VStr s => s
  | VNone => "None"
  | _ => str_other v
  end.

(** [format(x, ".2f")] of a float that may be [inf] *)
Definition format_2f_x `{Formatting} (x : xfloat) : string :=
  match x with
  | Fin r => format_2f r
  | PInf => "inf"
  end.

(** [float(v)] where the result may be [inf] and is kept *)
Definition float_x `{Builtins} (v : pyval) : res xfloat :=
  match v with
  | VInf => Ok PInf
  | _ => r ← float v; mret (Fin r)
  end.

(** [sep.join(items)]: every item must be a [str]. *)
Fixpoint join (sep : string) (items : list pyval) : res string :=
  match items with
  | [] => Ok ""
  | VStr s :: rest =>
      match rest with
      | [] => Ok s
      | _ :: _ => t ← join sep rest; mret (s +:+ sep +:+ t)
      end
  | _ :: _ => Raise TypeError
  end.

End Py.

(** ** The store of place records *)

Abbreviation addr := nat (only parsing).
Abbreviation store := (gmap nat (gmap string pyval)).

(** A computation that reads and writes the store and may raise. *)
Definition py (A : Type) : Type := store → res A * store.

#[global] Instance py_ret : MRet py := λ A a σ, (Ok a, σ).
#[global] Instance py_bind : MBind py := λ A B k m σ,
  match m σ with
  | (Ok a, σ') => k a σ'
  | (Raise e, σ') => (Raise e, σ')
  end.

Definition lift {A} (r : res A) : py A := λ σ, (r, σ).
Definition raise {A} (e : exn) : py A := λ σ, (Raise e, σ).

(** The dict at an address.  Python has no dangling reference; an address
    outside the store reads as an empty dict. *)
Definition deref (σ : store) (p : addr) : pydict := σ !!! p.

(** [p.get(key, default)] for a record [p] *)
Definition get (p : addr) (key : string) (dflt : pyval) : py pyval :=
  λ σ, (Ok (default dflt (deref σ p !! key)), σ).

(** [p[key] = v] for a record [p] *)
Definition setitem (p : addr) (key : string) (v : pyval) : py () :=
  λ σ, (Ok (), <[p := <[key := v]> (deref σ p)]> σ).

(** [for x in l: s = body(x, s)]; a [continue] in the body returns [s]. *)
Fixpoint for_ {A S} (l : list A) (body : A → S → py S) (s : S) : py S :=
  match l with
  | [] => mret s
  | x :: l' => s' ← body x s; for_ l' body s'
  end.

(** [p[key]] for a record [p] *)
Definition getitem (p : addr) (key : string) : py pyval :=
  λ σ, (match deref σ p !! key with
        | Some v => Ok v
        | None => Raise (KeyError key)
        end, σ).

(** ** The world of the [main] functions *)

(** The map [folium] builds: a [Map] and the children added to it. *)
Module folium.

Inductive child : Type :=
  | Marker (location : R * R) (tooltip popup : string)
  | PolyLine (locations : list (R * R)) (weight : Z) (opacity : R).

Record Map : Type := {
  location : R * R;
  zoom_start : Z;
  children : list child
}.

(** [c.add_to(m)] *)
Definition add_to (c : child) (m : Map) : Map :=
  {| location := location m; zoom_start := zoom_start m;
     children := children m ++ [c] |}.

End folium.

(** A [googlemaps.Client], by what it answers.  [places_nearby] gives the
    ["results"] entry of its response, when the response has one: a list of
    place records, which live in the store.  [distance_matrix] gives its
    response. *)
Record gmaps_client : Type := {
  places_nearby : R * R → Z → string → option (list addr);
  distance_matrix : list (R * R) → list (R * R) → string → pyval
}.

(** What a program does to the outside, in order. *)
Inductive event : Type :=
  | PlacesNearby (location : R * R) (radius : Z) (type : string)
  | DistanceMatrix (origins destinations : list (R * R)) (mode : string)
  | Print (line : string)
  | SaveMap (m : folium.Map) (file : string).

Record world : Type := World {
  environ : gmap string string;
  objects : gmap nat (gmap string pyval);
  trace : list event
}.

(** A computation in the world: it may raise. *)
Definition io (A : Type) : Type := world → res A * world.

#[global] Instance io_ret : MRet io := λ A a w, (Ok a, w).
#[global] Instance io_bind : MBind io := λ A B k m w,
  match m w with
  | (Ok a, w') => k a w'
  | (Raise e, w') => (Raise e, w')
  end.

Definition io_res {A} (r : res A) : io A := λ w, (r, w).

(** A computation on the store, run on the world's objects. *)
Definition io_py {A} (m : py A) : io A := λ w,
  let '(r, σ) := m (objects w) in (r, World (environ w) σ (trace w)).

Definition emit (e : event) : io () := λ w,
  (Ok (), World (environ w) (objects w) (trace w ++ [e])).

(** [print(line)] *)
Definition print (line : string) : io () := emit (Print line).

(** [os.getenv(name)] *)
Definition getenv (name : string) : io (option string) := λ w,
  (Ok (environ w !! name), w).

(** [gmaps.places_nearby(location=..., radius=..., type=...)] *)
Definition call_places_nearby (gmaps : gmaps_client) (location : R * R)
    (radius : Z) (type : string) : io (option (list addr)) :=
  emit (PlacesNearby location radius type);;
  mret (places_nearby gmaps location radius type).

(** [gmaps.distance_matrix(origins=..., destinations=..., mode=...)] *)
Definition call_distance_matrix (gmaps : gmaps_client)
    (origins destinations : list (R * R)) (mode : string) : io pyval :=
  emit (DistanceMatrix origins destinations mode);;
  mret (distance_matrix gmaps origins destinations mode).

(** [m.save(file)] *)
Definition save (m : folium.Map) (file : string) : io () :=
  emit (SaveMap m file).

(** [for x in l: body(x)] *)
Fixpoint for_io {A} (l : list A) (body : A → io ()) : io () :=
  match l with
  | [] => mret ()
  | x :: l' => body x;; for_io l' body
  end.

(** The two library calls that stand before every request:
    [dotenv.load_dotenv()], by what it makes of the environment, and
    [googlemaps.Client(key=...)], which may refuse a key. *)
Class Platform : Type := {
  dotenv_environ : gmap string string → gmap string string;
  new_client : string → res gmaps_client
}.

(** [load_dotenv()] *)
Definition load_dotenv `{Platform} : io () := λ w,
  (Ok (), World (dotenv_environ (environ w)) (objects w) (trace w)).

(** ** [math], on real numbers *)

Module math.

(** [math.radians(x)] *)
Definition radians (x : R) : R := x * (PI / 180).

(** [math.sqrt(x)]: [ValueError] ("math domain error") below zero. *)
Definition sqrt (x : R) : res R :=
  if bool_decide (0 <= x) then Ok (R_sqrt.sqrt x) else Raise ValueError.

(** [math.atan2(y, x)]: the angle of the point [(x, y)], in (-pi, pi]. *)
Definition atan2 (y x : R) : R :=
  if bool_decide (0 < x) then atan (y / x)
  else if bool_decide (x < 0) then
    (if bool_decide (0 <= y) then atan (y / x) + PI else atan (y / x) - PI)
  else if bool_decide (0 < y) then PI / 2
  else if bool_decide (y < 0) then - (PI / 2)
  else 0.

End math.

(** ** nearest_store.py *)

Module nearest_store.

Definition ORIGIN : R * R := (40.4406, -79.9959).

Record PlaceCandidate : Type := {
  name : pyval;
  address : pyval;
  lat : R;
  lng : R;
  straight_line_miles : R
}.

Definition haversine_miles (a b : R * R) : res R :=
  let '(lat1, lon1) := a in
  let '(lat2, lon2) := b in
  let r := 3958.7613 in
  let phi1 := math.radians lat1 in
  let phi2 := math.radians lat2 in
  let dphi := math.radians (lat2 - lat1) in
  let dlambda := math.radians (lon2 - lon1) in
  let h := sin (dphi / 2) ^ 2 + cos phi1 * cos phi2 * sin (dlambda / 2) ^ 2 in
  s ← math.sqrt h;
  c ← math.sqrt (1 - h);
  mret (2 * r * math.atan2 s c).

Section with_builtins.
Context `{Builtins}.

Definition to_candidates (origin : R * R) (places : list addr)
  : py (list PlaceCandidate) :=
  for_ places (λ p candidates,
    geometry ← get p "geometry" (VDict ∅);
    loc ← lift (Py.get geometry "location" (VDict ∅));
    lat ← lift (Py.get loc "lat" VNone);
    lng ← lift (Py.get loc "lng" VNone);
    if Py.is_none lat || Py.is_none lng then mret candidates
    else
      name ← get p "name" (VStr "Unknown");
      address ← get p "vicinity" (VStr "Unknown address");
      lat_f ← lift (Py.float lat);
      lng_f ← lift (Py.float lng);
      lat_a ← lift (Py.float lat);
      lng_a ← lift (Py.float lng);
      miles ← lift (haversine_miles origin (lat_a, lng_a));
      mret (candidates ++ [{| name := name; address := address;
                              lat := lat_f; lng := lng_f;
                              straight_line_miles := miles |}])) [].

(** Lines 104-109 of [main], which binds the result to [nearest], with the
    origin as a parameter; [main] runs them at [ORIGIN]. *)
Definition select_nearest (origin : R * R) (places : list addr)
  : py PlaceCandidate :=
  candidates ← to_candidates origin places;
  match candidates with
  | [] =>
      raise (RuntimeError "No grocery stores found. Try increasing SEARCH_RADIUS_METERS.")
  | _ :: _ => lift (Py.min straight_line_miles candidates)
  end.

End with_builtins.

(** [driving_metrics], from the response [dm] of [gmaps.distance_matrix]
    on. *)
Definition driving_metrics (dm : pyval) : res (pyval * pyval) :=
  element ← (rows ← Py.get dm "rows" (VList [VDict ∅]);
             row ← Py.item0 rows;
             elements ← Py.get row "elements" (VList [VDict ∅]);
             Py.item0 elements);
  status ← Py.get element "status" VNone;
  if Py.ne_str status "OK" then mret (VNone, VNone)
  else
    distance ← Py.item element "distance";
    distance_text ← Py.item distance "text";
    duration ← Py.item element "duration";
    duration_text ← Py.item duration "text";
    mret (distance_text, duration_text).

Definition SEARCH_RADIUS_METERS : Z := 5000.
Definition PLACE_TYPE : string := "grocery_or_supermarket".
Definition TRAVEL_MODE : string := "driving".

Section with_platform.
Context `{Builtins} `{Formatting} `{Platform}.

Definition get_api_key : io string :=
  load_dotenv;;
  key ← getenv "GOOGLE_MAPS_API_KEY";
  match key with
  | None => io_res (Raise (RuntimeError "Missing GOOGLE_MAPS_API_KEY. Check your .env file."))
  | Some k =>
      if String.eqb k "" then
        io_res (Raise (RuntimeError "Missing GOOGLE_MAPS_API_KEY. Check your .env file."))
      else mret k
  end.

Definition fetch_places (gmaps : gmaps_client) (origin : R * R)
    (radius_meters : Z) (place_type : string) : io (list addr) :=
  resp ← call_places_nearby gmaps origin radius_meters place_type;
  mret (default [] resp).

(** [driving_metrics(gmaps, origin, dest, mode)], the request included. *)
Definition driving_metrics_of (gmaps : gmaps_client) (origin dest : R * R)
    (mode : string) : io (pyval * pyval) :=
  dm ← call_distance_matrix gmaps [origin] [dest] mode;
  io_res (driving_metrics dm).

Definition main : io () :=
  key ← get_api_key;
  gmaps ← io_res (new_client key);
  places ← fetch_places gmaps ORIGIN SEARCH_RADIUS_METERS PLACE_TYPE;
  nearest ← io_py (select_nearest ORIGIN places);
  print "Nearest (straight-line):";;
  print ("- " +:+ Py.str (name nearest) +:+ " | " +:+ Py.str (address nearest));;
  print ("- ~" +:+ format_2f (straight_line_miles nearest) +:+ " miles away");;
  '(dist_text, time_text) ←
    driving_metrics_of gmaps ORIGIN (lat nearest, lng nearest) TRAVEL_MODE;
  print "Travel (driving):";;
  if Py.truthy dist_text && Py.truthy time_text then
    print ("- distance: " +:+ Py.str dist_text);;
    print ("- time: " +:+ Py.str time_text)
  else print "- (Driving metrics unavailable)".

End with_platform.

End nearest_store.

(** ** make_map.py *)

Module make_map.

Definition ORIGIN : R * R := (40.4406, -79.9959).

Definition haversine_miles (a b : R * R) : res R :=
  let '(lat1, lon1) := a in
  let '(lat2, lon2) := b in
  let r := 3958.7613 in
  let phi1 := math.radians lat1 in
  let phi2 := math.radians lat2 in
  let dphi := math.radians (lat2 - lat1) in
  let dlambda := math.radians (lon2 - lon1) in
  let h := sin (dphi / 2) ^ 2 + cos phi1 * cos phi2 * sin (dlambda / 2) ^ 2 in
  s ← math.sqrt h;
  c ← math.sqrt (1 - h);
  mret (2 * r * math.atan2 s c).

Section with_builtins.
Context `{Builtins}.

(** The loop of [pick_nearest_place], on the pair [(best, best_dist)]. *)
Definition scan (places : list addr) : py (option addr * xfloat) :=
  for_ places (λ p '(best, best_dist),
    geometry ← get p "geometry" (VDict ∅);
    loc ← lift (Py.get geometry "location" (VDict ∅));
    lat ← lift (Py.get loc "lat" VNone);
    lng ← lift (Py.get loc "lng" VNone);
    if Py.is_none lat || Py.is_none lng then mret (best, best_dist)
    else
      lat_f ← lift (Py.float lat);
      lng_f ← lift (Py.float lng);
      d ← lift (haversine_miles ORIGIN (lat_f, lng_f));
      if lt_x d best_dist then mret (Some p, Fin d)
      else mret (best, best_dist)) (None, PInf).

Definition pick_nearest_place (places : list addr) : py addr :=
  '(best, best_dist) ← scan places;
  match best with
  | None => raise (RuntimeError "No valid places found (missing coordinates).")
  | Some b =>
      setitem b "_straight_line_miles" (float_val best_dist);;
      mret b
  end.

End with_builtins.

Definition driving_metrics (dm : pyval) : res (pyval * pyval) :=
  element ← (rows ← Py.get dm "rows" (VList [VDict ∅]);
             row ← Py.item0 rows;
             elements ← Py.get row "elements" (VList [VDict ∅]);
             Py.item0 elements);
  status ← Py.get element "status" VNone;
  if Py.ne_str status "OK" then mret (VNone, VNone)
  else
    distance ← Py.item element "distance";
    distance_text ← Py.item distance "text";
    duration ← Py.item element "duration";
    duration_text ← Py.item duration "text";
    mret (distance_text, duration_text).

Definition SEARCH_RADIUS_METERS : Z := 5000.
Definition PLACE_TYPE : string := "grocery_or_supermarket".
Definition TRAVEL_MODE : string := "driving".
Definition OUTPUT_HTML : string := "pgh_nearest_grocery_map.html".

Section with_platform.
Context `{Builtins} `{Formatting} `{Platform}.

Definition get_api_key : io string :=
  load_dotenv;;
  key ← getenv "GOOGLE_MAPS_API_KEY";
  match key with
  | None => io_res (Raise (RuntimeError "Missing GOOGLE_MAPS_API_KEY. Check your .env file."))
  | Some k =>
      if String.eqb k "" then
        io_res (Raise (RuntimeError "Missing GOOGLE_MAPS_API_KEY. Check your .env file."))
      else mret k
  end.

Definition fetch_places (gmaps : gmaps_client) : io (list addr) :=
  resp ← call_places_nearby gmaps ORIGIN SEARCH_RADIUS_METERS PLACE_TYPE;
  mret (default [] resp).

(** [driving_metrics(gmaps, dest)], the request included. *)
Definition driving_metrics_of (gmaps : gmaps_client) (dest : R * R)
  : io (pyval * pyval) :=
  dm ← call_distance_matrix gmaps [ORIGIN] [dest] TRAVEL_MODE;
  io_res (driving_metrics dm).

(** Lines 99-104 of [main]: the chosen record and what is read out of it. *)
Definition main_nearest (places : list addr)
  : py (pyval * pyval * (R * R) * xfloat) :=
  nearest ← pick_nearest_place places;
  name ← get nearest "name" (VStr "Nearest grocery store");
  addr ← get nearest "vicinity" (VStr "Unknown address");
  geometry ← get nearest "geometry" (VDict ∅);
  loc ← lift (Py.get geometry "location" (VDict ∅));
  lat ← lift (Py.item loc "lat");
  lat_f ← lift (Py.float lat);
  lng ← lift (Py.item loc "lng");
  lng_f ← lift (Py.float lng);
  miles ← getitem nearest "_straight_line_miles";
  straight_line ← lift (Py.float_x miles);
  mret (name, addr, (lat_f, lng_f), straight_line).

Definition main : io () :=
  key ← get_api_key;
  gmaps ← io_res (new_client key);
  places ← fetch_places gmaps;
  match places with
  | [] =>
      io_res (Raise (RuntimeError "No grocery stores found. Try increasing SEARCH_RADIUS_METERS."))
  | _ :: _ =>
      '(name, addr, dest, straight_line) ← io_py (main_nearest places);
      '(dist_text, time_text) ← driving_metrics_of gmaps dest;
      let center := ((ORIGIN.1 + dest.1) / 2, (ORIGIN.2 + dest.2) / 2) in
      let m := {| folium.location := center; folium.zoom_start := 14;
                  folium.children := [] |} in
      let m := folium.add_to (folium.Marker ORIGIN "Origin" "Origin") m in
      let popup_lines :=
        [VStr ("<b>" +:+ Py.str name +:+ "</b>"); addr;
         VStr ("Straight-line: " +:+ Py.format_2f_x straight_line +:+ " miles")] in
      let popup_lines :=
        if Py.truthy dist_text && Py.truthy time_text then
          popup_lines ++ [VStr ("Driving distance: " +:+ Py.str dist_text);
                          VStr ("Driving time: " +:+ Py.str time_text)]
        else popup_lines in
      popup ← io_res (Py.join "<br>" popup_lines);
      let m := folium.add_to (folium.Marker dest "Nearest grocery store" popup) m in
      let m := folium.add_to (folium.PolyLine [ORIGIN; dest] 5 0.8) m in
      save m OUTPUT_HTML;;
      print ("Saved map to: " +:+ OUTPUT_HTML)
  end.

End with_platform.

End make_map.

(** ** test_places.py *)

Module test_places.

Section with_platform.
Context `{Formatting} `{Platform}.

(** The script, top to bottom. *)
Definition script : io () :=
  load_dotenv;;
  API_KEY ← getenv "GOOGLE_MAPS_API_KEY";
  match API_KEY with
  | None => io_res (Raise (RuntimeError "Missing GOOGLE_MAPS_API_KEY. Check your .env file."))
  | Some k =>
      if String.eqb k "" then
        io_res (Raise (RuntimeError "Missing GOOGLE_MAPS_API_KEY. Check your .env file."))
      else
        gmaps ← io_res (new_client k);
        let origin := (40.4406, -79.9959) in
        results ← call_places_nearby gmaps origin 5000 "grocery_or_supermarket";
        let places := default [] results in
        print ("Found " +:+ pretty (length places) +:+ " grocery stores:");;
        for_io (take 5 places) (λ p,
          name ← io_py (get p "name" VNone);
          vicinity ← io_py (get p "vicinity" VNone);
          print ("- " +:+ Py.str name +:+ " | " +:+ Py.str vicinity))
  end.

End with_platform.

End test_places.

(** ** [haversine_miles] in binary64

    The same function on IEEE-754 doubles.  Addition, subtraction,
    multiplication, division and the square root are the correctly rounded
    ones; the C library's [sin], [cos], [atan2] and [pow], which [math.sin],
    [math.cos], [math.atan2] and the float power [x ** 2] call, are
    parameters.  A sine lies between -1 and 1, where [pow(x, 2.0)] neither
    overflows nor fails, so [x ** 2] is that call and nothing else. *)

Module Binary64.

#[local] Set Warnings "-inexact-float".

Section libm.
Variables (libm_sin libm_cos : float → float).
Variables (libm_atan2 libm_pow : float → float → float).

(** CPython's [math_1], through which [math.sin], [math.cos] and
    [math.sqrt] call the C function: a NaN made from a number, or an
    infinity made from a finite number, is a [ValueError]. *)
Definition math_1 (func : float → float) (x : float) : res float :=
  let r := func x in
  if is_nan r && negb (is_nan x) then Raise ValueError
  else if is_infinity r && is_finite x then Raise ValueError
  else Ok r.

(** [math.radians(x)]: [x * (pi / 180)]. *)
Definition radians (x : float) : float :=
  (x * (0x1.921fb54442d18p+1 / 180))%float.

Definition haversine_miles (a b : float * float) : res float :=
  let '(lat1, lon1) := a in
  let '(lat2, lon2) := b in
  let r := 3958.7613%float in
  let phi1 := radians lat1 in
  let phi2 := radians lat2 in
  let dphi := radians (lat2 - lat1)%float in
  let dlambda := radians (lon2 - lon1)%float in
  s1 ← math_1 libm_sin (dphi / 2)%float;
  c1 ← math_1 libm_cos phi1;
  c2 ← math_1 libm_cos phi2;
  s2 ← math_1 libm_sin (dlambda / 2)%float;
  let h := (libm_pow s1 2 + c1 * c2 * libm_pow s2 2)%float in
  s ← math_1 PrimFloat.sqrt h;
  c ← math_1 PrimFloat.sqrt (1 - h)%float;
  mret (2 * r * libm_atan2 s c)%float.

End libm.

(** A table holding the C library's values at the arguments met in the
    two examples below. *)
Definition table_sin (x : float) : float :=
  if (x =? 0)%float then 0%float
  else if (x =? 1.5707963267948966)%float then 1%float
  else 0.9902680687415704%float.

Definition table_cos (x : float) : float :=
  if (x =? 0)%float then 1%float else 0.13917310096006547%float.

Definition table_pow (x y : float) : float := (x * x)%float.

Definition table_atan2 (y x : float) : float := y.

End Binary64.

(** * Vocabulary of the properties *)

(** The haversine intermediate value [h] of two points. *)
Definition hav_h (a b : R * R) : R :=
  sin (math.radians (b.1 - a.1) / 2) ^ 2
  + cos (math.radians a.1) * cos (math.radians b.1)
    * sin (math.radians (b.2 - a.2) / 2) ^ 2.


(** The value [haversine_miles] returns. *)
Definition hav (a b : R * R) : R :=
  2 * 3958.7613
  * math.atan2 (R_sqrt.sqrt (hav_h a b)) (R_sqrt.sqrt (1 - hav_h a b)).

(** The dict under [geometry.location] of a record, empty when either key is
    missing. *)
Definition location_of (d : pydict) : pydict :=
  match d !! "geometry" with
  | Some (VDict g) =>
      match g !! "location" with
      | Some (VDict l) => l
      | _ => ∅
      end
  | _ => ∅
  end.

(** The coordinates of a record: both [lat] and [lng] present and not
    [None]. *)
Definition coords (d : pydict) : option (R * R) :=
  match location_of d !! "lat", location_of d !! "lng" with
  | Some (VFloat x), Some (VFloat y) => Some (x, y)
  | _, _ => None
  end.

(** A coordinate entry of a place record: missing, [None], or a number. *)
Definition is_coord (o : option pyval) : bool :=
  match o with
  | None | Some VNone | Some (VFloat _) => true
  | Some _ => false
  end.

(** A place record as the places lookup returns it: [geometry] and
    [location], when present, are dicts, and [lat] and [lng] are coordinate
    entries. *)
Definition well_formed (d : pydict) : bool :=
  match d !! "geometry" with
  | None => true
  | Some (VDict g) =>
      match g !! "location" with
      | None => true
      | Some (VDict l) => is_coord (l !! "lat") && is_coord (l !! "lng")
      | Some _ => false
      end
  | Some _ => false
  end.

Definition places_ok (σ : store) (places : list addr) : Prop :=
  Forall (λ p, well_formed (deref σ p) = true) places.

(** The candidate [to_candidates] makes of a record. *)
Definition candidate_of (origin : R * R) (d : pydict)
  : option nearest_store.PlaceCandidate :=
  match coords d with
  | Some (x, y) =>
      Some {| nearest_store.name := default (VStr "Unknown") (d !! "name");
              nearest_store.address := default (VStr "Unknown address") (d !! "vicinity");
              nearest_store.lat := x;
              nearest_store.lng := y;
              nearest_store.straight_line_miles := hav origin (x, y) |}
  | None => None
  end.

(** One step of a scan for the smallest key, on the pair (best so far, its
    key); an item without a key is passed over. *)
Definition scan_step {A} (key : A → option R) (s : option A * xfloat) (x : A)
  : option A * xfloat :=
  match key x with
  | None => s
  | Some d => if lt_x d s.2 then (Some x, Fin d) else s
  end.

(** Position [i] holds the first smallest key of [ks]. *)
Definition first_min_at (ks : list (option R)) (i : nat) : Prop :=
  ∃ d, ks !! i = Some (Some d)
       ∧ ∀ j d', ks !! j = Some (Some d') → d <= d' ∧ ((j < i)%nat → d < d').

(** What a scan has found after a whole list. *)
Definition scan_found {A} (key : A → option R) (l : list A)
    (s : option A * xfloat) : Prop :=
  match s.1 with
  | None => s.2 = PInf ∧ Forall (λ x, key x = None) l
  | Some x =>
      ∃ i d, l !! i = Some x ∧ key x = Some d ∧ s.2 = Fin d
             ∧ first_min_at (key <$> l) i
  end.

(** The key a record is ranked by: its distance from [origin], when it has
    coordinates. *)
Definition place_key (origin : R * R) (σ : store) (p : addr) : option R :=
  hav origin <$> coords (deref σ p).

(** A computation that leaves the store as it found it. *)
Definition read_only {A} (m : py A) : Prop := ∀ σ, (m σ).2 = σ.



(** A record with coordinates [(x, y)] and nothing else. *)
Definition place_at (x y : R) : pydict :=
  {[ "geometry" :=
       VDict {[ "location" := VDict (<["lat" := VFloat x]> {[ "lng" := VFloat y ]}) ]} ]}.

(** A record whose coordinates are both [None]. *)
Definition place_without_coordinates : pydict :=
  {[ "geometry" :=
       VDict {[ "location" := VDict (<["lat" := VNone]> {[ "lng" := VNone ]}) ]} ]}.

(** The three records of the specification's example, at addresses 0, 1, 2. *)
Definition sample_store : store :=
  <[0%nat := place_at 40.45 (-80.00)]>
    (<[1%nat := place_at 40.44 (-79.99)]>
       {[ 2%nat := place_without_coordinates ]}).

(** A [float] that reads no string as a number; the sample records hold
    none. *)
Definition no_numerals : Builtins :=
  {| float_of_string := λ _, Raise ValueError |}.

(** Two records, the first at [(0, 0)], the second at [ORIGIN]. *)
Definition two_places : store :=
  <[0%nat := place_at 0 0]> {[ 1%nat := place_at 40.4406 (-79.9959) ]}.

(** [dm.get("rows", [{}])[0].get("elements", [{}])[0]], the element that
    [driving_metrics] reads in both files. *)
Definition response_element (dm : pyval) : res pyval :=
  rows ← Py.get dm "rows" (VList [VDict ∅]);
  row ← Py.item0 rows;
  elements ← Py.get row "elements" (VList [VDict ∅]);
  Py.item0 elements.

(** The texts of an element, as the routing provider sends them with the
    status ["OK"]. *)
Definition element_texts (e : pydict) (distance_text duration_text : string)
  : Prop :=
  ∃ distance duration,
    e !! "distance" = Some (VDict distance)
    ∧ distance !! "text" = Some (VStr distance_text)
    ∧ e !! "duration" = Some (VDict duration)
    ∧ duration !! "text" = Some (VStr duration_text).

(** The element of a response that found a route. *)
Definition route_element : pydict :=
  <["status" := VStr "OK"]>
    (<["distance" := VDict {[ "text" := VStr "0.6 mi" ]}]>
       {[ "duration" := VDict {[ "text" := VStr "4 mins" ]} ]}).

Definition route_response : pyval :=
  VDict {[ "rows" := VList [VDict {[ "elements" := VList [VDict route_element] ]}] ]}.

(** The lines a run has printed, in order. *)
Definition printed (evs : list event) : list string :=
  omap (λ e, match e with Print line => Some line | _ => None end) evs.

(** The routing requests of a run: origins, destinations and mode. *)
Definition routings (evs : list event)
  : list (list (R * R) * list (R * R) * string) :=
  omap (λ e, match e with
             | DistanceMatrix o d m => Some (o, d, m)
             | _ => None
             end) evs.

(** The places lookups of a run: location, radius and type. *)
Definition lookups (evs : list event) : list (R * R * Z * string) :=
  omap (λ e, match e with
             | PlacesNearby l r t => Some (l, r, t)
             | _ => None
             end) evs.

(** The maps a run has saved, with their file names. *)
Definition saved (evs : list event) : list (folium.Map * string) :=
  omap (λ e, match e with SaveMap m f => Some (m, f) | _ => None end) evs.

(** The environment after [load_dotenv()] holds a key that is not empty. *)
Definition api_key `{Platform} (w : world) (k : string) : Prop :=
  dotenv_environ (environ w) !! "GOOGLE_MAPS_API_KEY" = Some k ∧ k ≠ "".

(** The world after [get_api_key()]. *)
Definition loaded `{Platform} (w : world) : world :=
  World (dotenv_environ (environ w)) (objects w) (trace w).

(** The world [w] after [load_dotenv()], with the store [σ] and the events
    [evs] of the run added. *)
Definition after `{Platform} (w : world) (σ : store) (evs : list event)
  : world :=
  World (dotenv_environ (environ w)) σ (trace w ++ evs).

(** A client that finds the records 0 and 1 and a route to every
    destination, and one that finds the record 2 only. *)
Definition sample_client : gmaps_client :=
  {| places_nearby := λ _ _ _, Some [0; 1]%nat;
     distance_matrix := λ _ _ _, route_response |}.

Definition poor_client : gmaps_client :=
  {| places_nearby := λ _ _ _, Some [2%nat];
     distance_matrix := λ _ _ _, route_response |}.

(** A platform whose [.env] file holds no key, and which makes the sample
    client of every key. *)
Definition sample_platform : Platform :=
  {| dotenv_environ := λ env, env; new_client := λ _, Ok sample_client |}.

Definition poor_platform : Platform :=
  {| dotenv_environ := λ env, env; new_client := λ _, Ok poor_client |}.

(** Formatting for the sample runs, where the only number formatted is 0. *)
Definition sample_formatting : Formatting :=
  {| format_2f := λ _, "0.00"; str_other := λ _, "?" |}.

(** A world with a key in its environment and the records of [two_places],
    and one with the records of [sample_store]. *)
Definition sample_world : world :=
  World {[ "GOOGLE_MAPS_API_KEY" := "AIza-sample" ]} two_places [].

Definition poor_world : world :=
  World {[ "GOOGLE_MAPS_API_KEY" := "AIza-sample" ]} sample_store [].

(** A world without a key. *)
Definition keyless_world : world := World ∅ two_places [].

(** Lines 102-103 of [make_map.main] can read the coordinates [(x, y)] out
    of a record: its [geometry.location] is a dict whose entries [lat] and
    [lng] exist and convert to the floats [x] and [y]. *)
Definition readable `{Builtins} (d : pydict) (x y : R) : Prop :=
  ∃ loc lat lng,
    Py.get (default (VDict ∅) (d !! "geometry")) "location" (VDict ∅)
    = Ok (VDict loc)
    ∧ loc !! "lat" = Some lat ∧ loc !! "lng" = Some lng
    ∧ Py.float lat = Ok x ∧ Py.float lng = Ok y.





(** * Properties *)

(** ** The distance function, in exact arithmetic *)

Lemma radians_minus x y :
  math.radians (y - x) = math.radians y - math.radians x.
Proof. unfold math.radians. lra. Qed.

Lemma cos_cos_half_angles p q :
  cos p * cos q = cos ((p + q) / 2) ^ 2 - sin ((q - p) / 2) ^ 2.
Proof.
  set (v := (p + q) / 2). set (u := (q - p) / 2).
  replace p with (v - u) by (unfold u, v; lra).
  replace q with (v + u) by (unfold u, v; lra).
  rewrite cos_minus, cos_plus.
  pose proof (sin2_cos2 u) as Hu. pose proof (sin2_cos2 v) as Hv.
  unfold Rsqr in Hu, Hv. nra.
Qed.

(** [h] as a convex combination of two squares. *)
Lemma hav_h_convex a b :
  let s := sin (math.radians (b.2 - a.2) / 2) ^ 2 in
  hav_h a b
  = sin ((math.radians b.1 - math.radians a.1) / 2) ^ 2 * (1 - s)
    + cos ((math.radians a.1 + math.radians b.1) / 2) ^ 2 * s.
Proof.
  intros s. unfold hav_h. fold s.
  rewrite cos_cos_half_angles, radians_minus. ring.
Qed.

Lemma sin_sq_bounds x : 0 <= sin x ^ 2 <= 1.
Proof.
  pose proof (sin2_cos2 x) as Hx. unfold Rsqr in Hx.
  pose proof (pow2_ge_0 (sin x)). pose proof (pow2_ge_0 (cos x)).
  split; nra.
Qed.

Lemma cos_sq_bounds x : 0 <= cos x ^ 2 <= 1.
Proof.
  pose proof (sin2_cos2 x) as Hx. unfold Rsqr in Hx.
  pose proof (pow2_ge_0 (sin x)). pose proof (pow2_ge_0 (cos x)).
  split; nra.
Qed.

Lemma hav_h_bounds a b : 0 <= hav_h a b <= 1.
Proof.
  rewrite hav_h_convex. cbv zeta.
  pose proof (sin_sq_bounds (math.radians (b.2 - a.2) / 2)).
  pose proof (sin_sq_bounds ((math.radians b.1 - math.radians a.1) / 2)).
  pose proof (cos_sq_bounds ((math.radians a.1 + math.radians b.1) / 2)).
  split; nra.
Qed.

Lemma math_sqrt_nonneg x : 0 <= x → math.sqrt x = Ok (R_sqrt.sqrt x).
Proof. intros Hx. unfold math.sqrt. by rewrite bool_decide_eq_true_2. Qed.

Lemma nearest_store_haversine_value a b :
  nearest_store.haversine_miles a b = Ok (hav a b).
Proof.
  destruct a as [lat1 lon1], b as [lat2 lon2].
  pose proof (hav_h_bounds (lat1, lon1) (lat2, lon2)) as [H0 H1].
  unfold nearest_store.haversine_miles, hav. cbv zeta.
  change (sin (math.radians (lat2 - lat1) / 2) ^ 2
          + cos (math.radians lat1) * cos (math.radians lat2)
            * sin (math.radians (lon2 - lon1) / 2) ^ 2)
    with (hav_h (lat1, lon1) (lat2, lon2)).
  rewrite !math_sqrt_nonneg by lra. reflexivity.
Qed.

Lemma make_map_haversine_same a b :
  make_map.haversine_miles a b = nearest_store.haversine_miles a b.
Proof. reflexivity. Qed.

Lemma make_map_haversine_value a b :
  make_map.haversine_miles a b = Ok (hav a b).
Proof. rewrite make_map_haversine_same. apply nearest_store_haversine_value. Qed.







Lemma hav_h_sym a b : hav_h a b = hav_h b a.
Proof.
  unfold hav_h.
  replace (math.radians (b.1 - a.1) / 2) with (- (math.radians (a.1 - b.1) / 2))
    by (unfold math.radians; lra).
  replace (math.radians (b.2 - a.2) / 2) with (- (math.radians (a.2 - b.2) / 2))
    by (unfold math.radians; lra).
  rewrite !sin_neg. ring.
Qed.

Lemma hav_sym a b : hav a b = hav b a.
Proof. unfold hav. by rewrite (hav_h_sym a b). Qed.





(** C7.  [haversine_miles(a, b)] equals [haversine_miles(b, a)], in both
    files. *)
Theorem haversine_miles_symmetric (a b : R * R) :
  nearest_store.haversine_miles a b = nearest_store.haversine_miles b a
  ∧ make_map.haversine_miles a b = make_map.haversine_miles b a.
Proof.
  split.
  - rewrite !nearest_store_haversine_value. by rewrite (hav_sym a b).
  - rewrite !make_map_haversine_value. by rewrite (hav_sym a b).
Qed.



Lemma atan2_at_most_quarter y x : 0 <= y → 0 <= x → math.atan2 y x <= PI / 2.
Proof.
  intros Hy Hx. unfold math.atan2. pose proof PI_RGT_0.
  repeat case_bool_decide; try lra.
  pose proof (atan_bound (y / x)). lra.
Qed.

Lemma atan2_sin_cos x : 0 <= x <= PI / 2 → math.atan2 (sin x) (cos x) = x.
Proof.
  intros [H0 H1]. unfold math.atan2.
  destruct (Rle_lt_or_eq_dec _ _ H1) as [Hlt | ->].
  - assert (0 < cos x) by (apply cos_gt_0; lra).
    rewrite bool_decide_eq_true_2 by done.
    change (sin x / cos x) with (tan x). apply atan_tan. lra.
  - rewrite cos_PI2, sin_PI2. repeat case_bool_decide; lra.
Qed.

(** The distance when [h] is the squared sine of half an angle [u]: the arc
    of angle [2 u]. *)
Lemma hav_great_circle a b u :
  0 <= u <= PI / 2 → hav_h a b = sin u ^ 2 → hav a b = 2 * 3958.7613 * u.
Proof.
  intros [H0 H1] Hh. unfold hav. rewrite Hh.
  assert (0 <= sin u) by (apply sin_ge_0; lra).
  assert (0 <= cos u) by (apply cos_ge_0; lra).
  replace (1 - sin u ^ 2) with (cos u ^ 2).
  - rewrite !sqrt_pow2 by done. by rewrite atan2_sin_cos.
  - pose proof (sin2_cos2 u) as Hu. unfold Rsqr in Hu. lra.
Qed.

(** X3.  Along a meridian, and along the equator, the distance is the arc
    length [R * angle]: for [x1 <= x2 <= x1 + 180] degrees, the points
    [(x1, s)] and [(x2, s)] of one meridian, and the points [(0, x1)] and
    [(0, x2)] of the equator, are [R * (x2 - x1) * pi / 180] miles apart,
    with [R = 3958.7613]; a degree is about 69.09 miles. *)
Theorem haversine_miles_arc (x1 x2 s : R) :
  x1 <= x2 → x2 <= x1 + 180 →
  nearest_store.haversine_miles (x1, s) (x2, s)
  = Ok (3958.7613 * ((x2 - x1) * (PI / 180)))
  ∧ nearest_store.haversine_miles (0, x1) (0, x2)
    = Ok (3958.7613 * ((x2 - x1) * (PI / 180))).
Proof.
  intros H1 H2. pose proof PI_RGT_0 as Hpi.
  set (u := math.radians (x2 - x1) / 2).
  assert (0 <= u <= PI / 2) as Hu.
  { unfold u, math.radians. split; nra. }
  rewrite !nearest_store_haversine_value.
  split; f_equal.
  - rewrite (hav_great_circle _ _ u Hu); [unfold u, math.radians; lra |].
    unfold hav_h. cbn [fst snd]. fold u.
    replace (math.radians (s - s) / 2) with 0 by (unfold math.radians; lra).
    rewrite sin_0. ring.
  - rewrite (hav_great_circle _ _ u Hu); [unfold u, math.radians; lra |].
    unfold hav_h. cbn [fst snd]. fold u.
    replace (math.radians (0 - 0) / 2) with 0 by (unfold math.radians; lra).
    replace (math.radians 0) with 0 by (unfold math.radians; lra).
    rewrite sin_0, cos_0. ring.
Qed.

Lemma haversine_miles_arc_witness :
  nearest_store.haversine_miles (0, 0) (90, 0)
  = Ok (3958.7613 * ((90 - 0) * (PI / 180)))
  ∧ nearest_store.haversine_miles (0, 0) (0, 90)
    = Ok (3958.7613 * ((90 - 0) * (PI / 180))).
Proof. apply (haversine_miles_arc 0 90 0); lra. Defined.

(** X4.  No distance exceeds half the circumference, [pi * R]. *)
Theorem haversine_miles_at_most_half_turn (a b : R * R) :
  ∃ d, nearest_store.haversine_miles a b = Ok d ∧ d <= 3958.7613 * PI.
Proof.
  exists (hav a b). split; [apply nearest_store_haversine_value |].
  unfold hav.
  pose proof (atan2_at_most_quarter (R_sqrt.sqrt (hav_h a b))
                (R_sqrt.sqrt (1 - hav_h a b)) (sqrt_pos _) (sqrt_pos _)).
  nra.
Qed.

(** ** Scanning for the first minimum *)

Lemma lt_x_Fin d b : lt_x d (Fin b) = bool_decide (d < b).
Proof. reflexivity. Qed.

Lemma first_min_at_snoc_new (ks : list (option R)) (d : R) :
  (∀ j d', ks !! j = Some (Some d') → d < d') →
  first_min_at (ks ++ [Some d]) (length ks).
Proof.
  intros Hsmall. exists d. split.
  - by rewrite lookup_app_r, Nat.sub_diag.
  - intros j d' Hj.
    destruct (decide (j < length ks)%nat) as [Hlt | Hge].
    + rewrite lookup_app_l in Hj by done. apply Hsmall in Hj. split; [lra | done].
    + apply lookup_lt_Some in Hj as Hlen. rewrite length_app in Hlen. cbn in Hlen.
      assert (j = length ks) as -> by lia.
      rewrite lookup_app_r, Nat.sub_diag in Hj by done.
      injection Hj as <-. split; [lra | lia].
Qed.

Lemma first_min_at_snoc_keep (ks : list (option R)) (o : option R) (i : nat) :
  first_min_at ks i →
  (∀ d d', ks !! i = Some (Some d) → o = Some d' → d <= d') →
  first_min_at (ks ++ [o]) i.
Proof.
  intros (d & Hi & Hmin) Hnew. exists d.
  apply lookup_lt_Some in Hi as Hlen. split.
  - by rewrite lookup_app_l.
  - intros j d' Hj.
    destruct (decide (j < length ks)%nat) as [Hlt | Hge].
    + rewrite lookup_app_l in Hj by done. by apply Hmin.
    + apply lookup_lt_Some in Hj as Hlen'. rewrite length_app in Hlen'. cbn in Hlen'.
      assert (j = length ks) as -> by lia.
      rewrite lookup_app_r, Nat.sub_diag in Hj by done.
      injection Hj as ->. split; [by eapply Hnew | lia].
Qed.

Lemma scan_fold_found {A} (key : A → option R) (l : list A) :
  scan_found key l (fold_left (scan_step key) l (None, PInf)).
Proof.
  induction l as [| x l IH] using rev_ind.
  - cbn. by split.
  - rewrite fold_left_app. cbn [fold_left].
    destruct (fold_left (scan_step key) l (None, PInf)) as [best bd].
    unfold scan_found in *. cbn [fst snd] in *. unfold scan_step.
    destruct (key x) as [d |] eqn:Hkey; cbn [fst snd].
    + destruct best as [b |].
      * destruct IH as (i & db & Hi & Hb & -> & Hmin).
        rewrite lt_x_Fin. case_bool_decide as Hlt; cbn [fst snd].
        -- exists (length l), d. split_and!; [| done | done |].
           ++ by rewrite lookup_app_r, Nat.sub_diag.
           ++ rewrite fmap_app. cbn [fmap list_fmap]. rewrite Hkey.
              rewrite <- (length_fmap key l).
              apply first_min_at_snoc_new. intros j d' Hj.
              destruct Hmin as (d0 & Hd0 & Hall).
              rewrite list_lookup_fmap, Hi in Hd0. cbn in Hd0.
              rewrite Hb in Hd0. injection Hd0 as <-.
              apply Hall in Hj as [Hle _]. lra.
        -- exists i, db. split_and!; [| done | done |].
           ++ rewrite lookup_app_l; [done |]. by eapply lookup_lt_Some.
           ++ rewrite fmap_app. cbn [fmap list_fmap].
              apply first_min_at_snoc_keep; [done |].
              intros d0 d' Hd0 Hd'.
              rewrite list_lookup_fmap, Hi in Hd0. cbn in Hd0.
              rewrite Hb in Hd0. rewrite Hkey in Hd'.
              injection Hd0 as <-. injection Hd' as <-. lra.
      * destruct IH as [-> Hnone]. cbn.
        exists (length l), d. split_and!; [| done | done |].
        -- by rewrite lookup_app_r, Nat.sub_diag.
        -- rewrite fmap_app. cbn [fmap list_fmap]. rewrite Hkey.
           rewrite <- (length_fmap key l).
           apply first_min_at_snoc_new. intros j d' Hj.
           rewrite list_lookup_fmap in Hj.
           destruct (l !! j) as [y |] eqn:Hy; [| done].
           rewrite Forall_forall in Hnone.
           apply list_elem_of_lookup_2 in Hy.
           apply Hnone in Hy. cbn in Hj. congruence.
    + destruct best as [b |].
      * destruct IH as (i & db & Hi & Hb & Hbd & Hmin).
        exists i, db. split_and!; [| done | done |].
        -- rewrite lookup_app_l; [done |]. by eapply lookup_lt_Some.
        -- rewrite fmap_app. cbn [fmap list_fmap].
           apply first_min_at_snoc_keep; [done |].
           intros d0 d' _ Hd'. congruence.
      * destruct IH as [Hbd Hnone]. split; [done |].
        apply Forall_app. split; [done |]. by apply Forall_singleton.
Qed.

(** ** The loops *)

Arguments nearest_store.haversine_miles : simpl never.
Arguments make_map.haversine_miles : simpl never.

(** A loop whose body only computes a new state is a left fold. *)
Lemma for_pure {A S} (l : list A) (body : A → S → py S) (f : S → A → S)
    (σ : store) :
  (∀ x s, x ∈ l → body x s σ = (Ok (f s x), σ)) →
  ∀ s, for_ l body s σ = (Ok (fold_left f l s), σ).
Proof.
  induction l as [| x l IH]; intros Hbody s; [done |].
  cbn [for_ fold_left]. unfold mbind, py_bind.
  rewrite Hbody by apply list_elem_of_here.
  apply IH. intros y s' Hy. apply Hbody. by apply list_elem_of_further.
Qed.

Ltac py_unfold :=
  unfold mbind, mret, py_bind, py_ret, res_bind, res_ret, lift, raise, get,
    setitem in *.

(** Reading the coordinate entries of a well-formed record never raises. *)
Lemma well_formed_location (d : pydict) :
  well_formed d = true →
  Py.get (default (VDict ∅) (d !! "geometry")) "location" (VDict ∅)
  = Ok (VDict (location_of d))
  ∧ is_coord (location_of d !! "lat") = true
  ∧ is_coord (location_of d !! "lng") = true.
Proof.
  unfold well_formed, location_of.
  destruct (d !! "geometry") as [[| | | | | g] |]; try done.
  cbn. destruct (g !! "location") as [[| | | | | l] |]; try done.
  cbn. intros [??]%andb_true_iff. done.
Qed.

Section with_builtins.
Context `{Builtins}.

Lemma to_candidates_fold (origin : R * R) (places : list addr) (σ : store) :
  places_ok σ places →
  nearest_store.to_candidates origin places σ
  = (Ok (fold_left (λ cs p, cs ++ option_list (candidate_of origin (deref σ p)))
           places []), σ).
Proof.
  intros Hok. unfold nearest_store.to_candidates. apply for_pure.
  intros p cs Hp. unfold places_ok in Hok. rewrite Forall_forall in Hok.
  apply Hok, well_formed_location in Hp as (Hloc & Hlat & Hlng).
  py_unfold. rewrite Hloc. unfold candidate_of, coords. cbn [Py.get].
  destruct (location_of (deref σ p) !! "lat") as [[] |];
    destruct (location_of (deref σ p) !! "lng") as [[] |];
    try done; cbn; rewrite ?app_nil_r; try done.
  by rewrite nearest_store_haversine_value.
Qed.

End with_builtins.

Lemma fold_option_list {A B} (f : A → option B) (l : list A) (acc : list B) :
  fold_left (λ cs p, cs ++ option_list (f p)) l acc = acc ++ omap f l.
Proof.
  revert acc. induction l as [| x l IH]; intros acc; cbn.
  - by rewrite app_nil_r.
  - rewrite IH. destruct (f x); cbn; [| by rewrite app_nil_r].
    by rewrite <- app_assoc.
Qed.

Lemma read_only_ret {A} (a : A) : read_only (mret a).
Proof. by intros σ. Qed.

Lemma read_only_lift {A} (r : res A) : read_only (lift r).
Proof. by intros σ. Qed.

Lemma read_only_raise {A} (e : exn) : read_only (@raise A e).
Proof. by intros σ. Qed.

Lemma read_only_get p key dflt : read_only (get p key dflt).
Proof. by intros σ. Qed.

Lemma read_only_bind {A B} (m : py A) (k : A → py B) :
  read_only m → (∀ a, read_only (k a)) → read_only (m ≫= k).
Proof.
  intros Hm Hk σ. unfold mbind, py_bind. specialize (Hm σ).
  destruct (m σ) as [[a | e] σ']; cbn in Hm; subst σ'; [apply Hk | done].
Qed.

Lemma read_only_for {A S} (l : list A) (body : A → S → py S) (s : S) :
  (∀ x s', read_only (body x s')) → read_only (for_ l body s).
Proof.
  intros Hbody. revert s. induction l as [| x l IH]; intros s; cbn [for_].
  - apply read_only_ret.
  - apply read_only_bind; [apply Hbody | intros s'; apply IH].
Qed.

Ltac read_only_tac :=
  repeat first
    [ apply read_only_ret | apply read_only_lift | apply read_only_raise
    | apply read_only_get | apply read_only_for; intros
    | apply read_only_bind; [| intros]
    | match goal with
      | |- read_only (if ?b then _ else _) => destruct b
      | |- read_only (match ?x with _ => _ end) => destruct x
      | |- read_only (let '(_, _) := ?x in _) => destruct x
      end ].

(** An invariant of the loop state, carried through a loop whose body reads
    only. *)
Lemma for_invariant {A S} (I : S → Prop) (l : list A) (body : A → S → py S)
    (σ : store) :
  (∀ x s, read_only (body x s)) →
  (∀ x s s', x ∈ l → I s → (body x s σ).1 = Ok s' → I s') →
  ∀ s s', I s → (for_ l body s σ).1 = Ok s' → I s'.
Proof.
  intros Hro. induction l as [| x l IH]; intros Hstep s s' Hs Hrun.
  - cbn in Hrun. by injection Hrun as <-.
  - cbn [for_] in Hrun. unfold mbind, py_bind in Hrun.
    pose proof (Hro x s σ) as Hσ.
    destruct (body x s σ) as [[s1 | e] σ1] eqn:Hb; cbn in Hσ; subst σ1;
      [| done].
    eapply (IH (λ y t t' Hy, Hstep y t t' (list_elem_of_further _ _ _ Hy)));
      [| done].
    eapply Hstep; [apply list_elem_of_here | done | by rewrite Hb].
Qed.

Section with_builtins.
Context `{Builtins}.

Lemma to_candidates_read_only origin places :
  read_only (nearest_store.to_candidates origin places).
Proof. unfold nearest_store.to_candidates. read_only_tac. Qed.

Lemma select_nearest_read_only origin places :
  read_only (nearest_store.select_nearest origin places).
Proof.
  unfold nearest_store.select_nearest.
  apply read_only_bind; [apply to_candidates_read_only |].
  intros [| c cs]; read_only_tac.
Qed.

Lemma scan_read_only places : read_only (make_map.scan places).
Proof. unfold make_map.scan. read_only_tac. Qed.

Lemma to_candidates_omap (origin : R * R) (places : list addr) (σ : store) :
  places_ok σ places →
  nearest_store.to_candidates origin places σ
  = (Ok (omap (λ p, candidate_of origin (deref σ p)) places), σ).
Proof.
  intros Hok. rewrite to_candidates_fold by done. by rewrite fold_option_list.
Qed.

Lemma scan_fold (places : list addr) (σ : store) :
  places_ok σ places →
  make_map.scan places σ
  = (Ok (fold_left (scan_step (place_key make_map.ORIGIN σ)) places (None, PInf)),
     σ).
Proof.
  intros Hok. unfold make_map.scan. apply for_pure.
  intros p [best bd] Hp. unfold places_ok in Hok. rewrite Forall_forall in Hok.
  apply Hok, well_formed_location in Hp as (Hloc & Hlat & Hlng).
  py_unfold. rewrite Hloc. unfold scan_step, place_key, coords. cbn [Py.get].
  destruct (location_of (deref σ p) !! "lat") as [[] |];
    destruct (location_of (deref σ p) !! "lng") as [[] |];
    try done; cbn.
  rewrite make_map_haversine_value. cbn. by destruct (lt_x _ _).
Qed.

End with_builtins.

(** ** First minima *)

Lemma first_min_at_unique (ks : list (option R)) (i j : nat) :
  first_min_at ks i → first_min_at ks j → i = j.
Proof.
  intros (d & Hi & Hmin) (d' & Hj & Hmin').
  destruct (Hmin _ _ Hj) as [? Hlt]. destruct (Hmin' _ _ Hi) as [? Hlt'].
  destruct (lt_eq_lt_dec i j) as [[Hij | ->] | Hji]; [| done |].
  - apply Hlt' in Hij. lra.
  - apply Hlt in Hji. lra.
Qed.









(** ** The two selections *)






Section with_builtins.
Context `{Builtins}.


Lemma select_nearest_empty (origin : R * R) (places : list addr) (σ : store) :
  places_ok σ places →
  Forall (λ p, coords (deref σ p) = None) places →
  nearest_store.select_nearest origin places σ
  = (Raise (RuntimeError
       "No grocery stores found. Try increasing SEARCH_RADIUS_METERS."), σ).
Proof.
  intros Hok Hnone. unfold nearest_store.select_nearest. py_unfold.
  rewrite to_candidates_omap by done.
  replace (omap _ places) with (@nil nearest_store.PlaceCandidate); [done |].
  clear Hok. induction Hnone as [| p places Hp _ IH]; [done |].
  cbn. unfold candidate_of at 1. by rewrite Hp.
Qed.

Lemma pick_nearest_place_spec (places : list addr) (σ : store) (i : nat) :
  places_ok σ places →
  first_min_at (place_key make_map.ORIGIN σ <$> places) i →
  ∃ b d, places !! i = Some b
         ∧ place_key make_map.ORIGIN σ b = Some d
         ∧ make_map.pick_nearest_place places σ
           = (Ok b, <[b := <["_straight_line_miles" := VFloat d]> (deref σ b)]> σ).
Proof.
  intros Hok Hmin. unfold make_map.pick_nearest_place. py_unfold.
  rewrite scan_fold by done.
  pose proof (scan_fold_found (place_key make_map.ORIGIN σ) places) as Hfound.
  destruct (fold_left _ places (None, PInf)) as [[b |] bd];
    unfold scan_found in Hfound; cbn [fst snd] in Hfound.
  - destruct Hfound as (j & d & Hj & Hd & -> & Hmin').
    pose proof (first_min_at_unique _ _ _ Hmin Hmin') as ->.
    by exists b, d.
  - destruct Hfound as [_ Hnone]. destruct Hmin as (d & Hi & _).
    rewrite list_lookup_fmap in Hi.
    destruct (places !! i) as [b |] eqn:Hb; [| done].
    rewrite Forall_forall in Hnone. apply list_elem_of_lookup_2, Hnone in Hb.
    cbn in Hi. congruence.
Qed.

Lemma pick_nearest_place_empty (places : list addr) (σ : store) :
  places_ok σ places →
  Forall (λ p, coords (deref σ p) = None) places →
  make_map.pick_nearest_place places σ
  = (Raise (RuntimeError "No valid places found (missing coordinates)."), σ).
Proof.
  intros Hok Hnone. unfold make_map.pick_nearest_place. py_unfold.
  rewrite scan_fold by done.
  replace (fold_left _ places (None, PInf)) with (@None addr, PInf); [done |].
  clear Hok. generalize (@None addr, PInf).
  induction Hnone as [| p places Hp _ IH]; intros s; [done |].
  cbn [fold_left]. unfold scan_step at 2, place_key. rewrite Hp. apply IH.
Qed.

End with_builtins.

(** ** Claims about the selection *)


Section with_builtins.
Context `{Builtins}.




End with_builtins.

(** ** What the selections write *)

Section with_builtins.
Context `{Builtins}.



End with_builtins.

Lemma first_min_at_singleton (d : R) : first_min_at [Some d] 0.
Proof.
  exists d. split; [done |]. intros [| j] d' Hj; [| done].
  injection Hj as <-. split; [lra | lia].
Qed.



(** ** The two selections compared *)




(** ** [driving_metrics] *)

Lemma ne_str_false v s : Py.ne_str v s = false ↔ v = VStr s.
Proof.
  destruct v as [| | | s' | |]; cbn; try (split; congruence).
  rewrite negb_false_iff, String.eqb_eq. split; congruence.
Qed.

Lemma driving_metrics_same dm :
  make_map.driving_metrics dm = nearest_store.driving_metrics dm.
Proof. reflexivity. Qed.

Lemma driving_metrics_not_ok dm e :
  response_element dm = Ok (VDict e) →
  e !! "status" ≠ Some (VStr "OK") →
  nearest_store.driving_metrics dm = Ok (VNone, VNone).
Proof.
  intros Hel Hst. unfold nearest_store.driving_metrics.
  fold (response_element dm). rewrite Hel. cbn.
  destruct (Py.ne_str _ _) eqn:Hne; [done |].
  apply ne_str_false in Hne. destruct (e !! "status"); cbn in Hne; congruence.
Qed.

Lemma driving_metrics_ok dm e dt tt :
  response_element dm = Ok (VDict e) →
  e !! "status" = Some (VStr "OK") →
  element_texts e dt tt →
  nearest_store.driving_metrics dm = Ok (VStr dt, VStr tt).
Proof.
  intros Hel Hst (distance & duration & Hd & Hdt & Hu & Hut).
  unfold nearest_store.driving_metrics.
  fold (response_element dm). rewrite Hel. cbn.
  rewrite Hst. cbn. rewrite Hd. cbn. rewrite Hdt. cbn.
  rewrite Hu. cbn. by rewrite Hut.
Qed.

(** C9.  For a routing response whose element is [e], carrying its two
    texts when its status is ["OK"]: [driving_metrics], in both files,
    returns [(None, None)] exactly when the status of [e] is not ["OK"],
    without raising, and returns the distance text and the duration text of
    [e] otherwise. *)
Theorem driving_metrics_spec (dm : pyval) (e : pydict) (dt tt : string) :
  response_element dm = Ok (VDict e) →
  (e !! "status" = Some (VStr "OK") → element_texts e dt tt) →
  (nearest_store.driving_metrics dm = Ok (VNone, VNone)
   ↔ e !! "status" ≠ Some (VStr "OK"))
  ∧ (e !! "status" = Some (VStr "OK") →
     nearest_store.driving_metrics dm = Ok (VStr dt, VStr tt))
  ∧ make_map.driving_metrics dm = nearest_store.driving_metrics dm.
Proof.
  intros Hel Htexts. split; [| split; [| done]].
  - split.
    + intros Hres Hst.
      rewrite (driving_metrics_ok dm e dt tt) in Hres by auto. done.
    + by apply driving_metrics_not_ok.
  - intros Hst. apply (driving_metrics_ok dm e); auto.
Qed.

Lemma driving_metrics_spec_witness :
  (nearest_store.driving_metrics route_response = Ok (VNone, VNone)
   ↔ route_element !! "status" ≠ Some (VStr "OK"))
  ∧ (route_element !! "status" = Some (VStr "OK") →
     nearest_store.driving_metrics route_response
     = Ok (VStr "0.6 mi", VStr "4 mins"))
  ∧ make_map.driving_metrics route_response
    = nearest_store.driving_metrics route_response.
Proof.
  apply (driving_metrics_spec route_response route_element "0.6 mi" "4 mins").
  - reflexivity.
  - intros _. eexists _, _. repeat split; reflexivity.
Defined.

(** ** The hypotheses at sample inputs *)






(** ** Rounding *)

Set Warnings "-inexact-float".

(** X1.  In exact arithmetic the intermediate value [h] of any two points
    lies between 0 and 1, and [haversine_miles] returns a number, in both
    files. *)
Theorem haversine_miles_exact_total (a b : R * R) :
  0 <= hav_h a b <= 1
  ∧ (∃ d, nearest_store.haversine_miles a b = Ok d)
  ∧ (∃ d, make_map.haversine_miles a b = Ok d).
Proof.
  split; [apply hav_h_bounds |]. split; eexists.
  - apply nearest_store_haversine_value.
  - apply make_map_haversine_value.
Qed.

(** C5 fails in binary64.  With the C library's values of [sin], [cos] and
    [pow] at the arguments met, [haversine_miles((-82.0, -180.0), (82.0, 0.0))]
    computes [h = 1.0000000000000002], and [math.sqrt(1 - h)] raises
    [ValueError]. *)
Theorem binary64_haversine_domain_error
    (libm_sin libm_cos : float → float)
    (libm_atan2 libm_pow : float → float → float) :
  libm_sin 1.4311699866353502%float = 0.9902680687415704%float →
  libm_cos (-1.4311699866353502)%float = 0.13917310096006547%float →
  libm_cos 1.4311699866353502%float = 0.13917310096006547%float →
  libm_sin 1.5707963267948966%float = 1%float →
  libm_pow 0.9902680687415704%float 2%float = 0.9806308479691596%float →
  libm_pow 1%float 2%float = 1%float →
  Binary64.haversine_miles libm_sin libm_cos libm_atan2 libm_pow
    (-82, -180)%float (82, 0)%float
  = Raise ValueError.
Proof.
  intros Hs1 Hc1 Hc2 Hs2 Hp1 Hp2.
  unfold Binary64.haversine_miles, Binary64.math_1, Binary64.radians.
  cbv zeta. vm_compute. rewrite Hs1, Hc1, Hc2, Hs2.
  vm_compute. rewrite Hp1, Hp2.
  vm_compute. reflexivity.
Qed.

Lemma binary64_haversine_domain_error_witness :
  Binary64.haversine_miles Binary64.table_sin Binary64.table_cos
    Binary64.table_atan2 Binary64.table_pow (-82, -180)%float (82, 0)%float
  = Raise ValueError.
Proof.
  apply binary64_haversine_domain_error; vm_compute; reflexivity.
Defined.

(** X2.  In binary64 two distinct coordinate pairs can be at distance
    exactly zero: the latitude [5e-324] underflows to zero radians, so
    [haversine_miles((0.0, 0.0), (5e-324, 0.0))] returns [0.0]. *)
Theorem binary64_haversine_zero_distinct
    (libm_sin libm_cos : float → float)
    (libm_atan2 libm_pow : float → float → float) :
  libm_sin 0%float = 0%float →
  libm_cos 0%float = 1%float →
  libm_pow 0%float 2%float = 0%float →
  libm_atan2 0%float 1%float = 0%float →
  Binary64.haversine_miles libm_sin libm_cos libm_atan2 libm_pow
    (0, 0)%float (0x1p-1074, 0)%float
  = Ok 0%float
  ∧ (0 =? 0x1p-1074)%float = false.
Proof.
  intros Hs Hc Hp Ha. split; [| reflexivity].
  unfold Binary64.haversine_miles, Binary64.math_1, Binary64.radians.
  cbv zeta. vm_compute. rewrite Hs, Hc.
  vm_compute. rewrite Hp.
  vm_compute. rewrite Ha.
  vm_compute. reflexivity.
Qed.

Lemma binary64_haversine_zero_distinct_witness :
  Binary64.haversine_miles Binary64.table_sin Binary64.table_cos
    Binary64.table_atan2 Binary64.table_pow (0, 0)%float (0x1p-1074, 0)%float
  = Ok 0%float
  ∧ (0 =? 0x1p-1074)%float = false.
Proof.
  apply binary64_haversine_zero_distinct; vm_compute; reflexivity.
Defined.

(** * The programs, end to end *)

Ltac io_unfold :=
  unfold call_places_nearby, call_distance_matrix, print, save, emit, getenv,
    load_dotenv, io_res, io_py in *;
  unfold mbind, io_bind, mret, io_ret in *;
  cbn [fst snd environ objects trace] in *.

(** ** [get_api_key] *)

Section with_platform.
Context `{Builtins} `{Formatting} `{Platform}.

Lemma get_api_key_same (w : world) :
  make_map.get_api_key w = nearest_store.get_api_key w.
Proof. reflexivity. Qed.

Lemma get_api_key_ok (w : world) (k : string) :
  api_key w k → nearest_store.get_api_key w = (Ok k, loaded w).
Proof.
  intros [Hk Hne]. unfold nearest_store.get_api_key. io_unfold.
  rewrite Hk. apply String.eqb_neq in Hne. by rewrite Hne.
Qed.

Lemma get_api_key_run (w : world) :
  (nearest_store.get_api_key w).2 = loaded w
  ∧ match (nearest_store.get_api_key w).1 with
    | Ok k => api_key w k
    | Raise e =>
        e = RuntimeError "Missing GOOGLE_MAPS_API_KEY. Check your .env file."
        ∧ ∀ k, ¬ api_key w k
    end.
Proof.
  unfold nearest_store.get_api_key, api_key. io_unfold.
  destruct (dotenv_environ (environ w) !! "GOOGLE_MAPS_API_KEY") as [k |];
    cbn; [| by split; [| split; [| intros k []]]].
  destruct (String.eqb k "") eqn:Hk; cbn.
  - apply String.eqb_eq in Hk as ->. split; [done |]. split; [done |].
    intros k [[= <-] Hne]. done.
  - apply String.eqb_neq in Hk. done.
Qed.

End with_platform.

(** X5.  [get_api_key], in both files, returns the value of
    [GOOGLE_MAPS_API_KEY] as the environment has it after [load_dotenv()],
    exactly when that value is set and is not the empty string; otherwise it
    raises the [RuntimeError] that names the variable.  It never returns an
    empty key, makes no request and prints nothing. *)
Theorem get_api_key_spec `{Platform} (w : world) :
  (∀ k, (nearest_store.get_api_key w).1 = Ok k
        ↔ dotenv_environ (environ w) !! "GOOGLE_MAPS_API_KEY" = Some k
          ∧ k ≠ "")
  ∧ (∀ e, (nearest_store.get_api_key w).1 = Raise e →
          e = RuntimeError "Missing GOOGLE_MAPS_API_KEY. Check your .env file.")
  ∧ (nearest_store.get_api_key w).2
    = World (dotenv_environ (environ w)) (objects w) (trace w)
  ∧ make_map.get_api_key w = nearest_store.get_api_key w.
Proof.
  destruct (get_api_key_run w) as [Hw Hr].
  split; [| split; [| done]].
  - intros k. split.
    + intros Hk. rewrite Hk in Hr. exact Hr.
    + intros Hk. by rewrite (get_api_key_ok w k Hk).
  - intros e He. rewrite He in Hr. by destruct Hr.
Qed.

(** ** [nearest_store.main] *)

(** [driving_metrics] raises no [RuntimeError]. *)
Lemma driving_metrics_raises dm e :
  nearest_store.driving_metrics dm = Raise e → ∀ msg, e ≠ RuntimeError msg.
Proof.
  unfold nearest_store.driving_metrics, Py.get, Py.item0, Py.item.
  unfold mbind, res_bind, mret, res_ret.
  intros Hrun msg ->.
  repeat (case_match; simplify_eq/=).
Qed.

Ltac run_done :=
  unfold after, loaded; cbn [environ objects trace];
  rewrite <- ?app_assoc; cbn [app];
  first [reflexivity | by rewrite app_nil_r].


Section with_platform.
Context `{Builtins} `{Formatting} `{Platform}.


(** X7.  What [nearest_store.main] does on any run, whatever the
    environment, the client and the records.  It leaves the records as they
    were and saves no map; it makes at most one places lookup and at most
    one routing request.  When it returns it has made exactly one of each,
    the lookup at [ORIGIN] with radius 5000 and the routing request from
    [ORIGIN] by car, and has printed five or six lines.  When it raises a
    [RuntimeError] (no key, or no candidate) it has printed nothing and
    made no routing request.  When it raises anything else it has printed
    either nothing or the three lines of the nearest store. *)
Theorem nearest_store_main_effects (w : world) :
  ∃ evs,
    (nearest_store.main w).2 = after w (objects w) evs
    ∧ (length (lookups evs) <= 1)%nat
    ∧ (length (routings evs) <= 1)%nat
    ∧ saved evs = []
    ∧ match (nearest_store.main w).1 with
      | Ok _ =>
          lookups evs
          = [(nearest_store.ORIGIN, 5000%Z, "grocery_or_supermarket")]
          ∧ (∃ dest, routings evs
                     = [([nearest_store.ORIGIN], [dest], "driving")])
          ∧ (4 < length (printed evs) < 7)%nat
      | Raise (RuntimeError _) => routings evs = [] ∧ printed evs = []
      | Raise _ => printed evs = [] ∨ length (printed evs) = 3%nat
      end.
Proof.
  destruct (nearest_store.main w) as [r w'] eqn:Hrun. cbn [fst snd].
  revert Hrun.
  unfold nearest_store.main, nearest_store.fetch_places,
    nearest_store.driving_metrics_of.
  unfold mbind at 1, io_bind at 1.
  destruct (get_api_key_run w) as [Hw Hr].
  destruct (nearest_store.get_api_key w) as [[k | e] w1];
    cbn in Hw, Hr; subst w1.
  2: { destruct Hr as [-> _]. intros [= <- <-]. exists [].
       split; [by run_done |]. cbn. auto with lia. }
  io_unfold. destruct (new_client k) as [gmaps | e].
  2: { intros [= <- <-]. exists []. split; [by run_done |]. cbn.
       destruct e; auto with lia. }
  cbn [objects loaded].
  pose proof (select_nearest_read_only nearest_store.ORIGIN
    (default [] (places_nearby gmaps nearest_store.ORIGIN
                   nearest_store.SEARCH_RADIUS_METERS nearest_store.PLACE_TYPE))
    (objects w)) as Hσ.
  destruct (nearest_store.select_nearest _ _ _) as [[c | e] σ];
    cbn in Hσ; subst σ.
  2: { intros [= <- <-]. eexists. split; [by run_done |]. cbn.
       destruct e; auto with lia. }
  destruct (nearest_store.driving_metrics _) as [[d t] | e] eqn:Hdm.
  2: { intros [= <- <-]. eexists. split; [by run_done |]. cbn.
       pose proof (driving_metrics_raises _ _ Hdm).
       destruct e; auto with lia. congruence. }
  destruct (Py.truthy d && Py.truthy t); intros [= <- <-];
    (eexists; split; [by run_done |]); cbn; eauto 10 with lia.
Qed.

End with_platform.


(** ** [make_map.main] *)

Section with_builtins.
Context `{Builtins}.

Lemma scan_best_readable (places : list addr) (σ : store) best bd :
  (make_map.scan places σ).1 = Ok (best, bd) →
  ∀ b, best = Some b →
    ∃ x y, readable (deref σ b) x y ∧ bd = Fin (hav make_map.ORIGIN (x, y)).
Proof.
  intros Hrun b Hb. unfold make_map.scan in Hrun.
  refine (for_invariant
            (λ s, ∀ b, s.1 = Some b →
               ∃ x y, readable (deref σ b) x y
                      ∧ s.2 = Fin (hav make_map.ORIGIN (x, y)))
            places _ σ _ _ (None, PInf) (best, bd) _ Hrun b Hb).
  - intros p [best0 bd0]. read_only_tac.
  - clear Hrun. intros p [best0 bd0] s' Hp Hs Hbody b' Hb'.
    py_unfold. cbn in Hbody. unfold Py.get in Hbody.
    repeat (case_match; simplify_eq; cbn in * ); simplify_eq/=; eauto.
    all: try rewrite make_map_haversine_value in *; simplify_eq.
    exists a2, a3. split; [| done]. unfold readable. rewrite H1. cbn.
    rewrite H0. apply orb_false_elim in H3 as [Hlat Hlng].
    destruct (d !! "lat") as [lat |] eqn:Elat; [| done].
    destruct (d !! "lng") as [lng |] eqn:Elng; [| done].
    by exists d, lat, lng.
  - done.
Qed.

Lemma main_nearest_reads (places : list addr) (σ σ' : store) (b : addr) :
  make_map.pick_nearest_place places σ = (Ok b, σ') →
  ∃ x y,
    readable (deref σ b) x y
    ∧ σ' = <[b := <["_straight_line_miles" := VFloat (hav make_map.ORIGIN (x, y))]>
                     (deref σ b)]> σ
    ∧ make_map.main_nearest places σ
      = (Ok (default (VStr "Nearest grocery store") (deref σ b !! "name"),
             default (VStr "Unknown address") (deref σ b !! "vicinity"),
             (x, y), Fin (hav make_map.ORIGIN (x, y))), σ').
Proof.
  intros Hpick. unfold make_map.main_nearest.
  unfold mbind at 1, py_bind at 1. rewrite Hpick.
  revert Hpick. unfold make_map.pick_nearest_place. py_unfold.
  pose proof (scan_read_only places σ) as Hσ.
  pose proof (scan_best_readable places σ) as Hread.
  destruct (make_map.scan places σ) as [[[best bd] | e] σ1];
    cbn in Hσ; subst σ1; [| done].
  destruct best as [b0 |]; [| done].
  destruct (Hread (Some b0) bd eq_refl b0 eq_refl) as (x & y & Hxy & ->).
  cbn. intros [= -> <-]. exists x, y. split; [done |]. split; [done |].
  destruct Hxy as (loc & lat & lng & Hloc & Hlat & Hlng & Hx & Hy).
  unfold get, getitem, deref. rewrite !lookup_total_insert_eq.
  rewrite !lookup_insert_ne by done. rewrite lookup_insert_eq.
  fold (deref σ b). rewrite Hloc. cbn. rewrite Hlat, Hlng. cbn.
  rewrite Hx, Hy. by rewrite !lookup_insert_ne.
Qed.
End with_builtins.



Section with_platform.
Context `{Builtins} `{Formatting} `{Platform}.

End with_platform.

Section with_platform.
Context `{Builtins} `{Formatting} `{Platform}.

Lemma main_nearest_raises (places : list addr) (σ σ' : store) (e : exn) :
  make_map.pick_nearest_place places σ = (Raise e, σ') →
  make_map.main_nearest places σ = (Raise e, σ').
Proof.
  intros Hpick. unfold make_map.main_nearest.
  unfold mbind at 1, py_bind at 1. by rewrite Hpick.
Qed.

(** X11.  No candidate.  When no record of the lookup has coordinates, both
    programs raise a [RuntimeError] after the places lookup, having made no
    routing request, printed nothing and written nothing.
    [nearest_store.main] gives the message ["No grocery stores found. ..."]
    whether the lookup found no record or only records without coordinates;
    [make_map.main] gives that message in the first case and
    ["No valid places found (missing coordinates)."] in the second. *)
Theorem mains_without_candidates (w : world) (k : string)
    (gmaps : gmaps_client) :
  let places :=
    default [] (places_nearby gmaps make_map.ORIGIN 5000
                  "grocery_or_supermarket") in
  let w' :=
    after w (objects w)
      [PlacesNearby make_map.ORIGIN 5000 "grocery_or_supermarket"] in
  api_key w k →
  new_client k = Ok gmaps →
  places_ok (objects w) places →
  Forall (λ p, coords (deref (objects w) p) = None) places →
  nearest_store.main w
  = (Raise (RuntimeError
       "No grocery stores found. Try increasing SEARCH_RADIUS_METERS."), w')
  ∧ make_map.main w
    = (Raise (RuntimeError
         match places with
         | [] => "No grocery stores found. Try increasing SEARCH_RADIUS_METERS."
         | _ :: _ => "No valid places found (missing coordinates)."
         end), w').
Proof.
  intros places w' Hkey Hclient Hok Hnone. split.
  - unfold nearest_store.main, nearest_store.fetch_places.
    unfold mbind at 1, io_bind at 1. rewrite (get_api_key_ok w k Hkey).
    io_unfold. rewrite Hclient. cbn [objects loaded].
    change (default [] _) with places.
    by rewrite (select_nearest_empty _ _ _ Hok Hnone).
  - unfold make_map.main, make_map.fetch_places.
    unfold mbind at 1, io_bind at 1.
    rewrite get_api_key_same, (get_api_key_ok w k Hkey).
    io_unfold. rewrite Hclient. cbn [objects loaded].
    change (default [] _) with places.
    destruct places as [| p0 places0] eqn:Hplaces; [done |].
    cbn [objects environ trace loaded].
    by rewrite (main_nearest_raises _ _ _ _ (pick_nearest_place_empty _ _ Hok Hnone)).
Qed.




End with_platform.

(** ** What [make_map.main] reads, and running the selection again *)

Section with_builtins.
Context `{Builtins}.

(** X8.  The subscripts of [make_map.main] cannot fail.  Whenever
    [pick_nearest_place] returns a record, lines 100-104 of [main], which
    read [loc["lat"]], [loc["lng"]] and [nearest["_straight_line_miles"]]
    without a default and convert them with [float], raise nothing: they
    give the name and address of the record (with their defaults), its
    coordinates [(x, y)], and a finite distance, the distance from [ORIGIN]
    to [(x, y)] that [pick_nearest_place] has just written.  When
    [pick_nearest_place] raises, they raise the same exception. *)
Theorem main_reads_cannot_fail (places : list addr) (σ : store) :
  match make_map.pick_nearest_place places σ with
  | (Ok b, σ') =>
      ∃ x y,
        make_map.main_nearest places σ
        = (Ok (default (VStr "Nearest grocery store") (deref σ b !! "name"),
               default (VStr "Unknown address") (deref σ b !! "vicinity"),
               (x, y), Fin (hav make_map.ORIGIN (x, y))), σ')
        ∧ deref σ' b !! "_straight_line_miles"
          = Some (VFloat (hav make_map.ORIGIN (x, y)))
  | (Raise e, σ') => make_map.main_nearest places σ = (Raise e, σ')
  end.
Proof.
  destruct (make_map.pick_nearest_place places σ) as [[b | e] σ'] eqn:Hpick.
  - destruct (main_nearest_reads _ _ _ _ Hpick) as (x & y & _ & -> & Hnear).
    exists x, y. split; [done |].
    unfold deref at 1. by rewrite lookup_total_insert_eq, lookup_insert_eq.
  - by apply main_nearest_raises.
Qed.

(** A loop whose body reads the same in two stores, and writes in neither,
    has the same result in both. *)
Lemma for_agree {A S} (l : list A) (body : A → S → py S) (σ σ' : store) :
  (∀ x s, body x s σ' = ((body x s σ).1, σ')) →
  (∀ x s, (body x s σ).2 = σ) →
  ∀ s, (for_ l body s σ').1 = (for_ l body s σ).1.
Proof.
  intros Hsame Hread. induction l as [| x l IH]; intros s; [done |].
  cbn [for_]. unfold mbind, py_bind. rewrite Hsame.
  specialize (Hread x s).
  destruct (body x s σ) as [[s' | e] σ1]; cbn in Hread; subst σ1; [| done].
  cbn [fst]. apply IH.
Qed.

(** The scan reads nothing of a record but its [geometry]. *)
Lemma scan_geometry (places : list addr) (σ σ' : store) :
  (∀ p, deref σ' p !! "geometry" = deref σ p !! "geometry") →
  (make_map.scan places σ').1 = (make_map.scan places σ).1.
Proof.
  intros Hg. unfold make_map.scan. apply for_agree.
  - intros p [best bd]. py_unfold. unfold get. rewrite Hg.
    repeat (case_match; simplify_eq/=); done.
  - intros p [best bd]. read_only_tac.
Qed.

(** X13.  [pick_nearest_place] can be run again.  On the records as a
    first call has left them, a second call returns the same record and
    changes nothing: the field the first call added is not read by the
    selection, and the second call overwrites it with the same distance. *)
Theorem pick_nearest_place_idempotent (places : list addr) (σ σ' : store)
    (b : addr) :
  make_map.pick_nearest_place places σ = (Ok b, σ') →
  make_map.pick_nearest_place places σ' = (Ok b, σ').
Proof.
  unfold make_map.pick_nearest_place. py_unfold.
  pose proof (scan_read_only places σ) as Hσ.
  pose proof (scan_read_only places σ') as Hσ'.
  pose proof (scan_geometry places σ) as Hg.
  destruct (make_map.scan places σ) as [[[best bd] | e] σ1];
    cbn in Hσ; subst σ1; [| done].
  destruct best as [b0 |]; [| done]. intros [= -> <-].
  match type of Hσ' with
  | context [make_map.scan places ?s] => set (σ' := s) in *
  end.
  specialize (Hg σ'). cbn [fst] in Hg.
  destruct (make_map.scan places σ') as [r σ1]; cbn in Hσ', Hg; subst σ1.
  rewrite Hg.
  - f_equal. unfold σ', deref. rewrite lookup_total_insert_eq.
    by rewrite insert_insert_eq, insert_insert_eq.
  - intros p. unfold σ', deref.
    destruct (decide (p = b)) as [-> | Hne].
    + rewrite lookup_total_insert_eq. by rewrite lookup_insert_ne.
    + by rewrite lookup_total_insert_ne.
Qed.

End with_builtins.

(** ** [driving_metrics] on responses that lack parts *)

(** X14.  [driving_metrics] on responses that lack parts, in both files.
    A response without ["rows"], and a first row without ["elements"], give
    [(None, None)]: the defaults [[{}]] stand in.  A response whose
    ["rows"], or whose first row's ["elements"], is an empty list raises
    [IndexError].  A first element with status ["OK"] and no ["distance"]
    raises [KeyError].  A response that is [None] raises [AttributeError].
    Rows and elements after the first are not looked at. *)
Theorem driving_metrics_degenerate (d row e : pydict) (rest rest' : list pyval) :
  nearest_store.driving_metrics (VDict (delete "rows" d)) = Ok (VNone, VNone)
  ∧ nearest_store.driving_metrics (VDict (<["rows" := VList []]> d))
    = Raise IndexError
  ∧ nearest_store.driving_metrics
      (VDict (<["rows" := VList (VDict (delete "elements" row) :: rest)]> d))
    = Ok (VNone, VNone)
  ∧ nearest_store.driving_metrics
      (VDict (<["rows" := VList (VDict (<["elements" := VList []]> row) :: rest)]> d))
    = Raise IndexError
  ∧ nearest_store.driving_metrics
      (VDict (<["rows" :=
                 VList (VDict (<["elements" :=
                                  VList (VDict (<["status" := VStr "OK"]>
                                                  (delete "distance" e))
                                         :: rest')]> row) :: rest)]> d))
    = Raise (KeyError "distance")
  ∧ nearest_store.driving_metrics VNone = Raise AttributeError
  ∧ ∀ dm, make_map.driving_metrics dm = nearest_store.driving_metrics dm.
Proof.
  repeat split; unfold nearest_store.driving_metrics;
    repeat (progress (cbn; rewrite ?lookup_delete_eq, ?lookup_insert_eq,
                        ?lookup_empty)); try done.
  rewrite (lookup_insert_ne _ "status" "distance") by done.
  by rewrite lookup_delete_eq.
Qed.

(** ** test_places.py *)

Section with_platform.
Context `{Formatting} `{Platform}.

Lemma for_io_prints (l : list addr) (w : world) :
  for_io l (λ p,
    name ← io_py (get p "name" VNone);
    vicinity ← io_py (get p "vicinity" VNone);
    print ("- " +:+ Py.str name +:+ " | " +:+ Py.str vicinity)) w
  = (Ok (),
     World (environ w) (objects w)
       (trace w
        ++ ((λ p, Print ("- "
                         +:+ Py.str (default VNone (deref (objects w) p !! "name"))
                         +:+ " | "
                         +:+ Py.str (default VNone
                                       (deref (objects w) p !! "vicinity"))))
            <$> l))).
Proof.
  revert w. induction l as [| p l IH]; intros w.
  - cbn. rewrite app_nil_r. by destruct w.
  - cbn [for_io]. unfold mbind at 1, io_bind at 1.
    unfold get. io_unfold. rewrite IH. cbn [environ objects trace].
    by rewrite <- app_assoc.
Qed.

(** X15.  The output of [test_places.py].  With a key in the environment
    and a client made of it, the script raises nothing, writes nothing, and
    does, in this order: one places lookup at [(40.4406, -79.9959)] with
    radius 5000 and type ["grocery_or_supermarket"]; one header line with
    the number of all records found; and one line for each of the first
    five records, with its name and vicinity, ["None"] standing for a
    missing one. *)
Theorem test_places_output (w : world) (k : string) (gmaps : gmaps_client) :
  let places :=
    default [] (places_nearby gmaps (40.4406, -79.9959) 5000
                  "grocery_or_supermarket") in
  api_key w k →
  new_client k = Ok gmaps →
  test_places.script w
  = (Ok (),
     after w (objects w)
       (PlacesNearby (40.4406, -79.9959) 5000 "grocery_or_supermarket"
        :: Print ("Found " +:+ pretty (length places) +:+ " grocery stores:")
        :: ((λ p, Print ("- "
                         +:+ Py.str (default VNone (deref (objects w) p !! "name"))
                         +:+ " | "
                         +:+ Py.str (default VNone
                                       (deref (objects w) p !! "vicinity"))))
            <$> take 5 places))).
Proof.
  intros places [Hk Hne] Hclient. unfold test_places.script.
  apply String.eqb_neq in Hne.
  unfold mbind at 1 2, io_bind at 1 2. unfold load_dotenv at 1, getenv at 1.
  cbn [environ]. rewrite Hk, Hne.
  unfold mbind at 1 2 3, io_bind at 1 2 3. unfold io_res at 1.
  rewrite Hclient. unfold call_places_nearby, print, emit.
  unfold mbind at 1 2, io_bind at 1 2, mret, io_ret.
  cbn [environ objects trace]. fold places.
  rewrite for_io_prints. cbn [environ objects trace].
  unfold after. by rewrite <- !app_assoc.
Qed.

End with_platform.

(** ** The hypotheses of the runs at sample inputs *)


Lemma mains_without_candidates_witness :
  ∃ w',
    @nearest_store.main no_numerals sample_formatting poor_platform poor_world
    = (Raise (RuntimeError
         "No grocery stores found. Try increasing SEARCH_RADIUS_METERS."), w')
    ∧ @make_map.main no_numerals sample_formatting poor_platform poor_world
      = (Raise (RuntimeError "No valid places found (missing coordinates)."),
         w').
Proof.
  eexists.
  apply (@mains_without_candidates no_numerals sample_formatting poor_platform
           poor_world "AIza-sample" poor_client).
  - split; [reflexivity | done].
  - reflexivity.
  - repeat constructor.
  - repeat constructor.
Defined.


Lemma pick_nearest_place_idempotent_witness :
  ∃ σ', @make_map.pick_nearest_place no_numerals [0%nat] sample_store
        = (Ok 0%nat, σ')
        ∧ @make_map.pick_nearest_place no_numerals [0%nat] σ' = (Ok 0%nat, σ').
Proof.
  destruct (@pick_nearest_place_spec no_numerals [0%nat] sample_store 0)
    as (b & d & Hb & _ & Hpick).
  { repeat constructor. }
  { apply first_min_at_singleton. }
  injection Hb as <-.
  eexists. split; [exact Hpick |].
  exact (@pick_nearest_place_idempotent no_numerals _ _ _ _ Hpick).
Defined.

Lemma test_places_output_witness :
  ∃ w', @test_places.script sample_formatting sample_platform sample_world
        = (Ok (), w')
        ∧ printed (trace w')
          = ["Found 2 grocery stores:"; "- None | None"; "- None | None"].
Proof.
  eexists. split.
  - apply (@test_places_output sample_formatting sample_platform sample_world
             "AIza-sample" sample_client).
    + split; [reflexivity | done].
    + reflexivity.
  - reflexivity.
Defined.
